(** * The [_nbody_c] extension module: [run_nbody_simulation]

    A shallow embedding of [src/nbody/_nbody_c/nbody_wrapper.c].  The wrapper
    is straight-line effectful C: it parses two Python strings, prints a few
    lines, saves the working directory, changes to the output directory,
    calls the external [main] of the simulation program, changes back and
    returns [main]'s status as a Python integer.

    The effects are threaded through a small state monad over a [Process]
    record.  The library calls the wrapper makes ([PyArg_ParseTuple],
    [getcwd], [chdir], [printf], [PyErr_SetString], [PyLong_FromLong]) are
    modelled after their documented behaviour; the external [main] is a
    parameter. *)

From Stdlib Require Import Ascii String ZArith.
From stdpp Require Import base strings gmap pretty list.

Local Open Scope Z_scope.

(** ** C strings *)

(** The line feed that ends every line the wrapper prints. *)
Definition nl : string := String "010"%char EmptyString.

(** A Python [str] holding a NUL code point cannot be handed out as a
    [char*]. *)
Fixpoint embedded_null (s : string) : bool :=
  match s with
  | EmptyString => false
  | String c rest => if Ascii.eqb c "000"%char then true else embedded_null rest
  end.

(** ** Python objects and exceptions *)

(** The Python values a caller can put into the argument tuple.  A [str] is
    kept as its UTF-8 bytes, which is what the [s] format unit hands to C;
    [PyUnicode_surrogate] is a [str] with a lone surrogate, which has no
    UTF-8 encoding; [PyOther] stands for an object of any other type. *)
Inductive PyObject : Type :=
  | Py_None
  | PyLong (v : Z)
  | PyBytes (b : string)
  | PyUnicode (utf8 : string)
  | PyUnicode_surrogate
  | PyOther (type_name : string).

(** A [PyObject*] return value: [NULL] signals a pending exception. *)
Definition NULL : option PyObject := None.

Inductive PyExc : Type :=
  | PyExc_TypeError
  | PyExc_ValueError
  | PyExc_UnicodeEncodeError
  | PyExc_OSError.

(** The interpreter's error indicator holds an exception class and, for the
    exceptions the wrapper raises itself, the message it gave.  The text of
    the messages [PyArg_ParseTuple] builds is not modelled ([None]). *)
Record exception : Type := Exception {
  exc_class : PyExc;
  exc_msg : option string
}.

(** Conversion of one argument by the format unit [s]: only [str] is
    accepted ([TypeError] otherwise), it must encode to UTF-8
    ([UnicodeEncodeError]) and be free of embedded NUL ([ValueError]). *)
Definition convert_s (o : PyObject) : exception + string :=
  match o with
  | PyUnicode u =>
      if embedded_null u then inl (Exception PyExc_ValueError None)
      else inr u
  | PyUnicode_surrogate => inl (Exception PyExc_UnicodeEncodeError None)
  | _ => inl (Exception PyExc_TypeError None)
  end.

(** [PyArg_ParseTuple(args, "ss", &a, &b)] as a pure function of the items
    of the argument tuple: the tuple must have exactly two items, converted
    left to right. *)
Definition parse_ss (args : list PyObject) : exception + (string * string) :=
  match args with
  | [a; b] =>
      match convert_s a with
      | inl e => inl e
      | inr x =>
          match convert_s b with
          | inl e => inl e
          | inr y => inr (x, y)
          end
      end
  | _ => inl (Exception PyExc_TypeError None)
  end.

(** ** The operating system: working directory and directories *)

(** What the wrapper can observe of the operating system: the working
    directory of the process and the directories that currently exist and
    can be entered, each named by its absolute path.  Paths are compared as
    written: no symbolic links and no [.], [..] or doubled slashes. *)
Record OS : Type := mkOS {
  cwd : string;
  dirs : gset string
}.

Definition is_absolute (path : string) : bool :=
  match path with
  | String c _ => Ascii.eqb c "/"%char
  | EmptyString => false
  end.

(** The directory a path names, seen from working directory [wd]. *)
Definition resolve (wd path : string) : string :=
  if is_absolute path then path else wd +:+ "/" +:+ path.

(** [getcwd(buf, size)]: the absolute path of the working directory, when
    the directory still exists and the path fits the buffer with its
    terminating NUL; [None] stands for a [NULL] result.  The state is not
    changed. *)
Definition sys_getcwd (size : nat) (o : OS) : option string :=
  if is_absolute (cwd o)
     && bool_decide (cwd o ∈ dirs o)
     && (String.length (cwd o) + 1 <=? size)%nat
  then Some (cwd o)
  else None.

(** [chdir(path)]: returns 0 and moves the working directory when [path]
    names an existing directory, returns -1 and changes nothing
    otherwise. *)
Definition sys_chdir (path : string) (o : OS) : Z * OS :=
  let target := resolve (cwd o) path in
  if bool_decide (target ∈ dirs o)
  then (0, mkOS target (dirs o))
  else (-1, o).

(** ** The external [main] *)

(** What a run of the simulation program's [main] does: it returns a
    status (the value of a C [int]), may print, and may change the working
    directory and the directories. *)
Record MainReturn : Type := mkMainReturn {
  status : Z;
  printed : list string;
  os_after : OS
}.

(** [extern int main(int argc, char* argv[])]: [argv] is a vector of C
    strings in which [None] is the [NULL] pointer. *)
Definition c_main : Type := Z -> list (option string) -> OS -> MainReturn.

(** One recorded invocation of [main]: its arguments and the operating
    system state it started from. *)
Record MainCall : Type := mkMainCall {
  call_argc : Z;
  call_argv : list (option string);
  call_os : OS
}.

(** ** The process and its monad *)

(** The state a call of the wrapper runs in.  [main_calls] is a ghost log
    of the invocations of [main], oldest first. *)
Record Process : Type := mkProcess {
  os : OS;
  stdout : list string;
  err_indicator : option exception;
  main_calls : list MainCall
}.

Definition M (A : Type) : Type := Process -> A * Process.

Definition ret {A : Type} (a : A) : M A := fun p => (a, p).

Definition bind {A B : Type} (m : M A) (k : A -> M B) : M B :=
  fun p => let '(a, p') := m p in k a p'.

Declare Scope proc_scope.
Delimit Scope proc_scope with proc.
Notation "x <- m ;; k" := (bind m (fun x => k))
  (at level 100, m at next level, right associativity) : proc_scope.
Notation "m ;; k" := (bind m (fun _ => k))
  (at level 100, right associativity) : proc_scope.
Local Open Scope proc_scope.

(** [printf] with its format already expanded. *)
Definition printf (line : string) : M unit :=
  fun p => (tt, mkProcess (os p) (stdout p ++ [line])
                          (err_indicator p) (main_calls p)).

Definition getcwd (size : nat) : M (option string) :=
  fun p => (sys_getcwd size (os p), p).

Definition chdir (path : string) : M Z :=
  fun p =>
    let '(rc, o) := sys_chdir path (os p) in
    (rc, mkProcess o (stdout p) (err_indicator p) (main_calls p)).

Definition PyErr_SetString (cls : PyExc) (msg : string) : M unit :=
  fun p => (tt, mkProcess (os p) (stdout p)
                          (Some (Exception cls (Some msg))) (main_calls p)).

(** [PyArg_ParseTuple(args, "ss", ...)]: [None] is the zero it returns on
    failure, after setting the exception. *)
Definition PyArg_ParseTuple_ss (args : list PyObject)
  : M (option (string * string)) :=
  fun p =>
    match parse_ss args with
    | inr paths => (Some paths, p)
    | inl e =>
        (None, mkProcess (os p) (stdout p) (Some e) (main_calls p))
    end.

(** A C [long] holds every [int], and a Python integer every [long]. *)
Definition PyLong_FromLong (v : Z) : M (option PyObject) :=
  ret (Some (PyLong v)).

Section Wrapper.

(** [extern int main(int argc, char* argv[]);] *)
Variable main : c_main.

(** The call [main(argc, argv)], with the invocation logged. *)
Definition call_main (argc : Z) (argv : list (option string)) : M Z :=
  fun p =>
    let r := main argc argv (os p) in
    (status r,
     mkProcess (os_after r) (stdout p ++ printed r) (err_indicator p)
               (main_calls p ++ [mkMainCall argc argv (os p)])).

Definition run_nbody_simulation (self : PyObject) (args : list PyObject)
  : M (option PyObject) :=
  parsed <- PyArg_ParseTuple_ss args ;;
  match parsed with
  | None => ret NULL
  | Some (input_file_path, output_dir_path) =>
      printf ("N-body simulation starting..." +:+ nl) ;;
      printf ("Input file: " +:+ input_file_path +:+ nl) ;;
      printf ("Output directory: " +:+ output_dir_path +:+ nl) ;;
      saved <- getcwd 1024 ;;
      match saved with
      | None =>
          PyErr_SetString PyExc_OSError "Cannot get current directory" ;;
          ret NULL
      | Some original_dir =>
          rc <- chdir output_dir_path ;;
          if negb (rc =? 0) then
            PyErr_SetString PyExc_OSError
                            "Cannot change to output directory" ;;
            ret NULL
          else
            let argv_sim :=
              [Some "nbody_comp"; Some input_file_path; None] in
            let argc_sim := 2 in
            result <- call_main argc_sim argv_sim ;;
            rc' <- chdir original_dir ;;
            (if negb (rc' =? 0) then
               printf ("Warning: Could not restore original directory"
                         +:+ nl)
             else ret tt) ;;
            printf ("N-body simulation completed with return code: "
                      +:+ pretty result +:+ nl) ;;
            PyLong_FromLong result
      end
  end.

End Wrapper.

(** ** Observations on a call *)

(** The [PyObject*] a call returns and the process it leaves. *)
Definition returned (main : c_main) (self : PyObject)
    (args : list PyObject) (p : Process) : option PyObject :=
  fst (run_nbody_simulation main self args p).

Definition process_after (main : c_main) (self : PyObject)
    (args : list PyObject) (p : Process) : Process :=
  snd (run_nbody_simulation main self args p).

(** The invocations of [main] a call of the wrapper adds to the log. *)
Definition calls_made (main : c_main) (self : PyObject)
    (args : list PyObject) (p : Process) : list MainCall :=
  drop (length (main_calls p))
       (main_calls (process_after main self args p)).

(** The lines printed before the working directory is touched. *)
Definition banner (inp out : string) : list string :=
  ["N-body simulation starting..." +:+ nl;
   "Input file: " +:+ inp +:+ nl;
   "Output directory: " +:+ out +:+ nl].

(** The argument vector the wrapper builds for [main]. *)
Definition argv_for (inp : string) : list (option string) :=
  [Some "nbody_comp"; Some inp; None].

(** The lines printed once [main] has returned; [restore_rc] is what the
    [chdir] back to the saved directory returned. *)
Definition epilogue (restore_rc result : Z) : list string :=
  (if negb (restore_rc =? 0)
   then ["Warning: Could not restore original directory" +:+ nl]
   else [])
  ++ ["N-body simulation completed with return code: "
        +:+ pretty result +:+ nl].

(** The exceptions the wrapper raises itself. *)
Definition getcwd_error : exception :=
  Exception PyExc_OSError (Some "Cannot get current directory").

Definition chdir_error : exception :=
  Exception PyExc_OSError (Some "Cannot change to output directory").

(** ** Properties a call may or may not have *)

(** The working directory at return is the one at entry whenever [main]
    was invoked. *)
Definition restores_cwd (main : c_main) (self : PyObject)
    (args : list PyObject) (p : Process) : Prop :=
  calls_made main self args p <> [] ->
  cwd (os (process_after main self args p)) = cwd (os p).

(** Every invocation of [main] is handed both paths as arguments. *)
Definition passes_both_paths (main : c_main) (self : PyObject)
    (args : list PyObject) (p : Process) : Prop :=
  forall inp out call,
    parse_ss args = inr (inp, out) ->
    call ∈ calls_made main self args p ->
    Some inp ∈ call_argv call /\ Some out ∈ call_argv call.

(** The status [main] returns is a function of [argc] and [argv] alone. *)
Definition status_of_arguments_only (main : c_main) : Prop :=
  forall argc argv o o',
    status (main argc argv o) = status (main argc argv o').

(** Two processes that differ at most in what was printed. *)
Definition same_but_stdout (p1 p2 : Process) : Prop :=
  os p1 = os p2 /\
  err_indicator p1 = err_indicator p2 /\
  main_calls p1 = main_calls p2.

(** ** Concrete processes, used to run the model *)

Definition demo_os : OS :=
  mkOS "/home/user" {[ "/home/user"; "/home/user/out" ]}.

Definition demo_process : Process := mkProcess demo_os [] None [].

Definition demo_args : list PyObject :=
  [PyUnicode "bodies.txt"; PyUnicode "out"].

(** The same call with the output directory written as an absolute path. *)
Definition demo_args_abs : list PyObject :=
  [PyUnicode "bodies.txt"; PyUnicode "/home/user/out"].

(** A call whose output directory does not exist. *)
Definition demo_args_missing : list PyObject :=
  [PyUnicode "bodies.txt"; PyUnicode "nowhere"].

(** A call with a [bytes] object where a [str] is required. *)
Definition demo_args_bytes : list PyObject :=
  [PyUnicode "bodies.txt"; PyBytes "out"].

(** A process whose working directory has been removed under it. *)
Definition orphan_process : Process :=
  mkProcess (mkOS "/gone" {[ "/home/user/out" ]}) [] None [].

(** A process in the same working directory as [demo_process], on a file
    system with one more directory and with earlier output and calls. *)
Definition later_process : Process :=
  mkProcess (mkOS "/home/user" {[ "/home/user"; "/home/user/out"; "/tmp" ]})
            ["earlier" +:+ nl] None
            [mkMainCall 2 (argv_for "old.txt") demo_os].

(** A process that differs from [demo_process] in its earlier output and
    in a pending exception only. *)
Definition noisy_process : Process :=
  mkProcess demo_os ["earlier" +:+ nl]
            (Some (Exception PyExc_ValueError None)) [].

(** A [main] that succeeds on the expected input file and fails with
    status 1 on anything else. *)
Definition main_demo : c_main :=
  fun argc argv o =>
    match argv with
    | [_; Some "bodies.txt"; None] => mkMainReturn 0 ["done" +:+ nl] o
    | _ => mkMainReturn 1 [] o
    end.

(** A process started in a scratch directory, and a call that sends the
    output elsewhere. *)
Definition scratch_process : Process :=
  mkProcess
    (mkOS "/tmp/scratch"
          {[ "/"; "/tmp"; "/tmp/scratch"; "/data"; "/data/out" ]})
    [] None [].

Definition scratch_args : list PyObject :=
  [PyUnicode "bodies.txt"; PyUnicode "/data/out"].

(** A [main] that removes the scratch directory and reports status 3. *)
Definition main_rmdir : c_main :=
  fun argc argv o =>
    mkMainReturn 3 [] (mkOS (cwd o) (dirs o ∖ {[ "/tmp/scratch" ]})).

(** ** The module: method table and initialisation *)











Section ModuleInit.

Variable main : c_main.




End ModuleInit.

(** ** Further observations on a call *)

(** The last line of a call that ran [main]. *)
Definition completion_line (result : Z) : string :=
  "N-body simulation completed with return code: "
    +:+ pretty result +:+ nl.


(** What a call printed. *)
Definition output_of (main : c_main) (self : PyObject)
    (args : list PyObject) (p : Process) : list string :=
  drop (length (stdout p)) (stdout (process_after main self args p)).


(** ** Further concrete processes *)


Fixpoint repeat_char (c : ascii) (n : nat) : string :=
  match n with
  | O => EmptyString
  | S n' => String c (repeat_char c n')
  end.

(** A directory whose path is 1024 bytes long, and a process inside it. *)
Definition deep_dir : string := String "/" (repeat_char "d" 1023).

Definition deep_process : Process :=
  mkProcess (mkOS deep_dir {[ deep_dir; "/data/out" ]}) [] None [].

(** ** Proof automation *)

(** Replace a call by what it evaluates to on one of its paths, given the
    path lemma [lem], and project the result. *)
Ltac on_path lem :=
  unfold calls_made, returned, process_after;
  rewrite lem;
  cbn [fst snd os stdout err_indicator main_calls].

(** * Proofs *)

(** ** The model runs *)

Example demo_run :
  run_nbody_simulation main_demo Py_None demo_args demo_process
  = (Some (PyLong 0),
     mkProcess demo_os
       ["N-body simulation starting..." +:+ nl;
        "Input file: bodies.txt" +:+ nl;
        "Output directory: out" +:+ nl;
        "done" +:+ nl;
        "N-body simulation completed with return code: 0" +:+ nl]
       None
       [mkMainCall 2 [Some "nbody_comp"; Some "bodies.txt"; None]
          (mkOS "/home/user/out" (dirs demo_os))]).
Proof. vm_compute. reflexivity. Qed.

Example demo_run_rmdir :
  run_nbody_simulation main_rmdir Py_None scratch_args scratch_process
  = (Some (PyLong 3),
     mkProcess (mkOS "/data/out" {[ "/"; "/tmp"; "/data"; "/data/out" ]})
       ["N-body simulation starting..." +:+ nl;
        "Input file: bodies.txt" +:+ nl;
        "Output directory: /data/out" +:+ nl;
        "Warning: Could not restore original directory" +:+ nl;
        "N-body simulation completed with return code: 3" +:+ nl]
       None
       [mkMainCall 2 [Some "nbody_comp"; Some "bodies.txt"; None]
          (mkOS "/data/out" (dirs (os scratch_process)))]).
Proof. vm_compute. reflexivity. Qed.

Example demo_run_bytes :
  run_nbody_simulation main_demo Py_None demo_args_bytes demo_process
  = (NULL,
     mkProcess demo_os [] (Some (Exception PyExc_TypeError None)) []).
Proof. vm_compute. reflexivity. Qed.

(** ** Argument parsing *)

(** The parse succeeds exactly on a tuple of two [str] objects without
    embedded NUL, and yields their contents. *)
Lemma parse_ss_inr args inp out :
  parse_ss args = inr (inp, out) <->
  args = [PyUnicode inp; PyUnicode out]
  /\ embedded_null inp = false /\ embedded_null out = false.
Proof.
  split.
  - destruct args as [| a [| b [| ? ?]]]; simpl; try discriminate.
    destruct a as [| ? | ? | x | | ?]; simpl; try discriminate.
    destruct (embedded_null x) eqn:Ha; try discriminate.
    destruct b as [| ? | ? | y | | ?]; simpl; try discriminate.
    destruct (embedded_null y) eqn:Hb; try discriminate.
    intros [= <- <-]. auto.
  - intros (-> & Ha & Hb). simpl. rewrite Ha, Hb. reflexivity.
Qed.

(** A failed parse leaves a [TypeError], a [ValueError] or a
    [UnicodeEncodeError]. *)
Lemma parse_ss_inl args e :
  parse_ss args = inl e ->
  e = Exception PyExc_TypeError None
  \/ e = Exception PyExc_ValueError None
  \/ e = Exception PyExc_UnicodeEncodeError None.
Proof.
  intros H.
  destruct args as [| a [| b [| ? ?]]]; simpl in H;
    try (injection H as <-; auto; fail).
  destruct a as [| ? | ? | x | | ?]; simpl in H;
    try (injection H as <-; auto; fail).
  destruct (embedded_null x); [injection H as <-; auto |].
  destruct b as [| ? | ? | y | | ?]; simpl in H;
    try (injection H as <-; auto; fail).
  destruct (embedded_null y); [injection H as <-; auto | discriminate].
Qed.

(** ** System calls *)

Lemma sys_chdir_rc path o :
  fst (sys_chdir path o) = 0 \/ fst (sys_chdir path o) = -1.
Proof. unfold sys_chdir. case_bool_decide; [left | right]; reflexivity. Qed.

Lemma sys_chdir_fail path o :
  fst (sys_chdir path o) <> 0 -> sys_chdir path o = (-1, o).
Proof.
  unfold sys_chdir. case_bool_decide; simpl; [congruence | reflexivity].
Qed.

Lemma sys_chdir_ok path o :
  fst (sys_chdir path o) = 0 ->
  sys_chdir path o = (0, mkOS (resolve (cwd o) path) (dirs o)).
Proof.
  unfold sys_chdir. case_bool_decide; simpl; [reflexivity | discriminate].
Qed.

Lemma sys_getcwd_Some size o c :
  sys_getcwd size o = Some c ->
  c = cwd o /\ is_absolute c = true /\ c ∈ dirs o.
Proof.
  unfold sys_getcwd.
  destruct (is_absolute (cwd o)) eqn:Habs; simpl; [| discriminate].
  case_bool_decide; simpl; [| discriminate].
  destruct (_ <=? _)%nat; [| discriminate].
  intros [= <-]. auto.
Qed.

(** Going back to a directory by the absolute path [getcwd] gave for it
    lands in that directory, from wherever the process is by then. *)
Lemma sys_chdir_absolute c o :
  is_absolute c = true ->
  fst (sys_chdir c o) = 0 ->
  cwd (snd (sys_chdir c o)) = c.
Proof.
  intros Habs Hrc. rewrite (sys_chdir_ok _ _ Hrc). simpl.
  unfold resolve. rewrite Habs. reflexivity.
Qed.

(** ** The four paths through the wrapper *)

Section Paths.

Variable main : c_main.
Variables (self : PyObject) (args : list PyObject) (p : Process).

Lemma run_parse_error e :
  parse_ss args = inl e ->
  run_nbody_simulation main self args p
  = (NULL, mkProcess (os p) (stdout p) (Some e) (main_calls p)).
Proof.
  intros Hparse.
  unfold run_nbody_simulation, bind, PyArg_ParseTuple_ss.
  rewrite Hparse. reflexivity.
Qed.

Lemma run_getcwd_error inp out :
  parse_ss args = inr (inp, out) ->
  sys_getcwd 1024 (os p) = None ->
  run_nbody_simulation main self args p
  = (NULL,
     mkProcess (os p) (stdout p ++ banner inp out) (Some getcwd_error)
               (main_calls p)).
Proof.
  intros Hparse Hcwd.
  unfold run_nbody_simulation, bind, PyArg_ParseTuple_ss, printf, getcwd.
  rewrite Hparse. cbn [os stdout err_indicator main_calls].
  rewrite Hcwd. unfold PyErr_SetString, ret, banner, getcwd_error.
  cbn [os stdout err_indicator main_calls].
  rewrite <- !app_assoc. reflexivity.
Qed.

Lemma run_chdir_error inp out c :
  parse_ss args = inr (inp, out) ->
  sys_getcwd 1024 (os p) = Some c ->
  fst (sys_chdir out (os p)) <> 0 ->
  run_nbody_simulation main self args p
  = (NULL,
     mkProcess (os p) (stdout p ++ banner inp out) (Some chdir_error)
               (main_calls p)).
Proof.
  intros Hparse Hcwd Hcd. apply sys_chdir_fail in Hcd.
  unfold run_nbody_simulation, bind, PyArg_ParseTuple_ss, printf, getcwd,
    chdir.
  rewrite Hparse. cbn [os stdout err_indicator main_calls].
  rewrite Hcwd. cbn [os stdout err_indicator main_calls].
  rewrite Hcd. unfold PyErr_SetString, ret, banner, chdir_error.
  cbn [os stdout err_indicator main_calls negb Z.eqb].
  rewrite <- !app_assoc. reflexivity.
Qed.

Lemma run_main_called inp out c :
  parse_ss args = inr (inp, out) ->
  sys_getcwd 1024 (os p) = Some c ->
  fst (sys_chdir out (os p)) = 0 ->
  let o1 := snd (sys_chdir out (os p)) in
  let r := main 2 (argv_for inp) o1 in
  let back := sys_chdir c (os_after r) in
  run_nbody_simulation main self args p
  = (Some (PyLong (status r)),
     mkProcess (snd back)
       (stdout p ++ banner inp out ++ printed r
          ++ epilogue (fst back) (status r))
       (err_indicator p)
       (main_calls p ++ [mkMainCall 2 (argv_for inp) o1])).
Proof.
  intros Hparse Hcwd Hcd o1 r back.
  assert (Hout : sys_chdir out (os p) = (0, o1)).
  { subst o1. destruct (sys_chdir out (os p)); simpl in *; congruence. }
  clearbody o1. subst r back.
  unfold run_nbody_simulation, bind, PyArg_ParseTuple_ss, printf, getcwd,
    chdir, call_main.
  rewrite Hparse. cbn [os stdout err_indicator main_calls].
  rewrite Hcwd. cbn [os stdout err_indicator main_calls].
  rewrite Hout.
  cbn [os stdout err_indicator main_calls negb Z.eqb os_after].
  fold (argv_for inp).
  destruct (sys_chdir c _) as [rc o2]. cbn [fst snd].
  unfold epilogue, PyLong_FromLong, ret, banner.
  destruct (negb (rc =? 0));
    cbn [os stdout err_indicator main_calls];
    rewrite <- !app_assoc; reflexivity.
Qed.

(** A call takes one of the four paths: [main] is invoked at most once,
    and only after the parse, [getcwd] and the first [chdir] succeeded. *)
Lemma calls_made_cases :
  calls_made main self args p = []
  \/ exists inp out c,
       parse_ss args = inr (inp, out)
       /\ sys_getcwd 1024 (os p) = Some c
       /\ fst (sys_chdir out (os p)) = 0
       /\ calls_made main self args p
          = [mkMainCall 2 (argv_for inp) (snd (sys_chdir out (os p)))].
Proof.
  unfold calls_made, process_after.
  destruct (parse_ss args) as [e | [inp out]] eqn:Hparse.
  { left. rewrite (run_parse_error e Hparse). apply drop_all. }
  destruct (sys_getcwd 1024 (os p)) as [c |] eqn:Hcwd.
  2: { left. rewrite (run_getcwd_error inp out Hparse Hcwd). apply drop_all. }
  destruct (sys_chdir_rc out (os p)) as [Hrc | Hrc].
  - right. exists inp, out, c. repeat split; try assumption.
    rewrite (run_main_called inp out c Hparse Hcwd Hrc).
    apply drop_app_length.
  - left. rewrite (run_chdir_error inp out c Hparse Hcwd); [apply drop_all |].
    rewrite Hrc. discriminate.
Qed.

End Paths.

(** * The wrapper's contract *)

(** ** Success path *)

(** C1: when the arguments parse as two strings and both saving the working
    directory and changing to the output directory succeed, the external
    [main] is invoked exactly once and the call returns the Python integer
    that holds the status [main] returned, unchanged. *)
Theorem main_status_relayed main self args p inp out c :
  parse_ss args = inr (inp, out) ->
  sys_getcwd 1024 (os p) = Some c ->
  fst (sys_chdir out (os p)) = 0 ->
  let call := mkMainCall 2 (argv_for inp) (snd (sys_chdir out (os p))) in
  calls_made main self args p = [call]
  /\ returned main self args p
     = Some (PyLong (status (main (call_argc call) (call_argv call)
                                  (call_os call)))).
Proof.
  intros Hparse Hcwd Hcd call. subst call.
  on_path (run_main_called main self args p inp out c Hparse Hcwd Hcd).
  split; [apply drop_app_length | reflexivity].
Qed.

Lemma main_status_relayed_witness :
  calls_made main_demo Py_None demo_args demo_process
  = [mkMainCall 2 (argv_for "bodies.txt")
       (snd (sys_chdir "out" (os demo_process)))]
  /\ returned main_demo Py_None demo_args demo_process
     = Some (PyLong (status (main_demo 2 (argv_for "bodies.txt")
                               (snd (sys_chdir "out" (os demo_process)))))).
Proof.
  apply (main_status_relayed main_demo Py_None demo_args demo_process
           "bodies.txt" "out" "/home/user"); reflexivity.
Defined.

(** ** Restoring the working directory *)

(** C2 as stated fails: with a [main] that removes the scratch directory
    the caller started in, [main] is invoked and the call returns in the
    output directory. *)
Lemma restores_cwd_fails :
  ~ restores_cwd main_rmdir Py_None scratch_args scratch_process.
Proof.
  unfold restores_cwd. intros H.
  assert (Hcalls : calls_made main_rmdir Py_None scratch_args
                     scratch_process <> []) by (vm_compute; discriminate).
  specialize (H Hcalls). vm_compute in H. discriminate H.
Qed.

(** C2 (amended): on every call that invokes [main], the wrapper ends by
    changing back, from the state [main] left, to the directory [getcwd]
    gave at entry.  When that [chdir] succeeds the working directory at
    return is the one at entry; when it fails the working directory is
    left where [main] left it. *)
Theorem cwd_restored_if_chdir_back_succeeds main self args p :
  calls_made main self args p <> [] ->
  exists inp out,
    parse_ss args = inr (inp, out)
    /\ sys_getcwd 1024 (os p) = Some (cwd (os p))
    /\ let r := main 2 (argv_for inp) (snd (sys_chdir out (os p))) in
       let back := sys_chdir (cwd (os p)) (os_after r) in
       os (process_after main self args p) = snd back
       /\ (fst back = 0 ->
           cwd (os (process_after main self args p)) = cwd (os p))
       /\ (fst back <> 0 ->
           os (process_after main self args p) = os_after r).
Proof.
  intros Hcalls.
  destruct (calls_made_cases main self args p)
    as [Hnone | (inp & out & c & Hparse & Hcwd & Hcd & _)];
    [contradiction |].
  destruct (sys_getcwd_Some _ _ _ Hcwd) as (-> & Habs & _).
  exists inp, out. split; [assumption |]. split; [assumption |].
  intros r back.
  on_path (run_main_called main self args p inp out _ Hparse Hcwd Hcd).
  fold r. fold back. split; [reflexivity |]. split.
  - intros Hback. apply sys_chdir_absolute; assumption.
  - intros Hback. subst back. rewrite (sys_chdir_fail _ _ Hback).
    reflexivity.
Qed.

Lemma cwd_restored_if_chdir_back_succeeds_witness :
  cwd (os (process_after main_demo Py_None demo_args demo_process))
  = cwd (os demo_process).
Proof.
  destruct (cwd_restored_if_chdir_back_succeeds
              main_demo Py_None demo_args demo_process)
    as (inp & out & Hparse & _ & _ & Hok & _).
  - vm_compute. discriminate.
  - simpl in Hparse. injection Hparse as <- <-. apply Hok. reflexivity.
Defined.

(** ** What [main] is handed *)

(** C3 as stated fails: the argument vector handed to [main] does not
    hold the output directory. *)
Lemma passes_both_paths_fails :
  ~ passes_both_paths main_demo Py_None demo_args demo_process.
Proof.
  intros H.
  destruct (H "bodies.txt" "out"
              (mkMainCall 2 (argv_for "bodies.txt")
                 (mkOS "/home/user/out" (dirs demo_os))))
    as [_ Hout].
  - reflexivity.
  - apply list_elem_of_singleton. reflexivity.
  - cbn [call_argv] in Hout. unfold argv_for in Hout.
    rewrite !elem_of_cons in Hout.
    destruct Hout as [Hout | [Hout | [Hout | Hout]]];
      try discriminate Hout.
    inversion Hout.
Qed.

(** C3 (amended): the entry point the wrapper invokes is
    [main(argc, argv)] with [argc = 2]; of the two paths only the input
    file path is an argument, as [argv[1]].  The output directory is not
    passed: it is the working directory [main] starts in.  The wrapper
    receives [main]'s status and returns it. *)
Theorem main_receives_input_path_only main self args p inp out c :
  parse_ss args = inr (inp, out) ->
  sys_getcwd 1024 (os p) = Some c ->
  fst (sys_chdir out (os p)) = 0 ->
  exists call,
    calls_made main self args p = [call]
    /\ call_argc call = 2
    /\ call_argv call = [Some "nbody_comp"; Some inp; None]
    /\ cwd (call_os call) = resolve (cwd (os p)) out
    /\ returned main self args p
       = Some (PyLong (status (main (call_argc call) (call_argv call)
                                    (call_os call)))).
Proof.
  intros Hparse Hcwd Hcd.
  exists (mkMainCall 2 (argv_for inp) (snd (sys_chdir out (os p)))).
  on_path (run_main_called main self args p inp out c Hparse Hcwd Hcd).
  rewrite drop_app_length, (sys_chdir_ok _ _ Hcd). cbn [snd cwd].
  repeat split; reflexivity.
Qed.

Lemma main_receives_input_path_only_witness :
  exists call,
    calls_made main_demo Py_None demo_args demo_process = [call]
    /\ call_argc call = 2
    /\ call_argv call = [Some "nbody_comp"; Some "bodies.txt"; None]
    /\ cwd (call_os call) = resolve (cwd (os demo_process)) "out"
    /\ returned main_demo Py_None demo_args demo_process
       = Some (PyLong (status (main_demo (call_argc call) (call_argv call)
                                         (call_os call)))).
Proof.
  apply (main_receives_input_path_only main_demo Py_None demo_args
           demo_process "bodies.txt" "out" "/home/user"); reflexivity.
Defined.

(** C9: every invocation of [main] the wrapper makes has [argc = 2] and
    [argv = {"nbody_comp", input_file_path, NULL}] and starts in the state
    the [chdir] to the output directory left.  The output directory is no
    argument of [main]: two calls that differ only in how the output
    directory is written, and whose [chdir] has the same outcome, return
    the same value and leave the same state, up to the line that echoes the
    path. *)
Theorem main_argument_vector main self args p :
  (forall call,
      call ∈ calls_made main self args p ->
      call_argc call = 2
      /\ exists inp out,
           parse_ss args = inr (inp, out)
           /\ call_argv call = [Some "nbody_comp"; Some inp; None]
           /\ call_os call = snd (sys_chdir out (os p)))
  /\ (forall args' inp out out',
         parse_ss args = inr (inp, out) ->
         parse_ss args' = inr (inp, out') ->
         sys_chdir out (os p) = sys_chdir out' (os p) ->
         returned main self args p = returned main self args' p
         /\ same_but_stdout (process_after main self args p)
                            (process_after main self args' p)).
Proof.
  split.
  - intros call Hin.
    destruct (calls_made_cases main self args p)
      as [Hnone | (inp & out & c & Hparse & _ & _ & Hone)].
    + rewrite Hnone in Hin. inversion Hin.
    + rewrite Hone in Hin. apply list_elem_of_singleton in Hin. subst call.
      split; [reflexivity |]. exists inp, out. auto.
  - intros args' inp out out' Hparse Hparse' Hsame.
    unfold same_but_stdout.
    destruct (sys_getcwd 1024 (os p)) as [c |] eqn:Hcwd.
    2: { on_path (run_getcwd_error main self args p inp out Hparse Hcwd).
         on_path (run_getcwd_error main self args' p inp out' Hparse' Hcwd).
         auto. }
    destruct (sys_chdir_rc out (os p)) as [Hrc | Hrc].
    + assert (Hrc' : fst (sys_chdir out' (os p)) = 0)
        by (rewrite <- Hsame; exact Hrc).
      on_path (run_main_called main self args p inp out c Hparse Hcwd Hrc).
      on_path (run_main_called main self args' p inp out' c
                 Hparse' Hcwd Hrc').
      rewrite Hsame. auto.
    + assert (Hne : fst (sys_chdir out (os p)) <> 0)
        by (rewrite Hrc; discriminate).
      assert (Hne' : fst (sys_chdir out' (os p)) <> 0)
        by (rewrite <- Hsame; exact Hne).
      on_path (run_chdir_error main self args p inp out c Hparse Hcwd Hne).
      on_path (run_chdir_error main self args' p inp out' c
                 Hparse' Hcwd Hne').
      auto.
Qed.

Lemma main_argument_vector_witness :
  (call_argc (mkMainCall 2 (argv_for "bodies.txt")
                (mkOS "/home/user/out" (dirs demo_os))) = 2
   /\ exists inp out,
        parse_ss demo_args = inr (inp, out)
        /\ argv_for "bodies.txt" = [Some "nbody_comp"; Some inp; None]
        /\ mkOS "/home/user/out" (dirs demo_os)
           = snd (sys_chdir out (os demo_process)))
  /\ (returned main_demo Py_None demo_args demo_process
      = returned main_demo Py_None demo_args_abs demo_process
      /\ same_but_stdout
           (process_after main_demo Py_None demo_args demo_process)
           (process_after main_demo Py_None demo_args_abs demo_process)).
Proof.
  destruct (main_argument_vector main_demo Py_None demo_args demo_process)
    as [Hargv Hout].
  split.
  - apply (Hargv (mkMainCall 2 (argv_for "bodies.txt")
                    (mkOS "/home/user/out" (dirs demo_os)))).
    apply list_elem_of_singleton. reflexivity.
  - apply (Hout demo_args_abs "bodies.txt" "out" "/home/user/out");
      reflexivity.
Defined.

(** ** Failure paths *)

(** C5: when the arguments do not parse as exactly two strings, the call
    returns [NULL] with the parse exception pending and nothing else has
    happened: nothing is printed, the working directory and the directories
    are untouched and [main] is not invoked. *)
Theorem parse_failure_has_no_effect main self args p e :
  parse_ss args = inl e ->
  returned main self args p = NULL
  /\ err_indicator (process_after main self args p) = Some e
  /\ cwd (os (process_after main self args p)) = cwd (os p)
  /\ os (process_after main self args p) = os p
  /\ stdout (process_after main self args p) = stdout p
  /\ calls_made main self args p = [].
Proof.
  intros Hparse.
  on_path (run_parse_error main self args p e Hparse).
  rewrite drop_all. repeat split; reflexivity.
Qed.

Lemma parse_failure_has_no_effect_witness :
  returned main_demo Py_None demo_args_bytes demo_process = NULL
  /\ err_indicator (process_after main_demo Py_None demo_args_bytes
                      demo_process)
     = Some (Exception PyExc_TypeError None)
  /\ cwd (os (process_after main_demo Py_None demo_args_bytes demo_process))
     = cwd (os demo_process)
  /\ os (process_after main_demo Py_None demo_args_bytes demo_process)
     = os demo_process
  /\ stdout (process_after main_demo Py_None demo_args_bytes demo_process)
     = stdout demo_process
  /\ calls_made main_demo Py_None demo_args_bytes demo_process = [].
Proof.
  apply (parse_failure_has_no_effect main_demo Py_None demo_args_bytes
           demo_process (Exception PyExc_TypeError None)).
  reflexivity.
Defined.

(** C7: when [getcwd] fails, the call returns [NULL] with an [OSError]
    pending, the working directory is unchanged and [main] is not
    invoked. *)
Theorem getcwd_failure_raises_OSError main self args p inp out :
  parse_ss args = inr (inp, out) ->
  sys_getcwd 1024 (os p) = None ->
  returned main self args p = NULL
  /\ err_indicator (process_after main self args p) = Some getcwd_error
  /\ exc_class getcwd_error = PyExc_OSError
  /\ cwd (os (process_after main self args p)) = cwd (os p)
  /\ os (process_after main self args p) = os p
  /\ calls_made main self args p = [].
Proof.
  intros Hparse Hcwd.
  on_path (run_getcwd_error main self args p inp out Hparse Hcwd).
  rewrite drop_all. repeat split; reflexivity.
Qed.

Lemma getcwd_failure_raises_OSError_witness :
  returned main_demo Py_None demo_args orphan_process = NULL
  /\ err_indicator (process_after main_demo Py_None demo_args orphan_process)
     = Some getcwd_error
  /\ exc_class getcwd_error = PyExc_OSError
  /\ cwd (os (process_after main_demo Py_None demo_args orphan_process))
     = cwd (os orphan_process)
  /\ os (process_after main_demo Py_None demo_args orphan_process)
     = os orphan_process
  /\ calls_made main_demo Py_None demo_args orphan_process = [].
Proof.
  apply (getcwd_failure_raises_OSError main_demo Py_None demo_args
           orphan_process "bodies.txt" "out"); reflexivity.
Defined.

(** C4: when the [chdir] to the output directory fails, the call returns
    [NULL] with an [OSError] pending, [main] is not invoked and the working
    directory is the one at entry. *)
Theorem chdir_failure_raises_OSError main self args p inp out c :
  parse_ss args = inr (inp, out) ->
  sys_getcwd 1024 (os p) = Some c ->
  fst (sys_chdir out (os p)) <> 0 ->
  returned main self args p = NULL
  /\ err_indicator (process_after main self args p) = Some chdir_error
  /\ exc_class chdir_error = PyExc_OSError
  /\ calls_made main self args p = []
  /\ cwd (os (process_after main self args p)) = cwd (os p)
  /\ os (process_after main self args p) = os p.
Proof.
  intros Hparse Hcwd Hcd.
  on_path (run_chdir_error main self args p inp out c Hparse Hcwd Hcd).
  rewrite drop_all. repeat split; reflexivity.
Qed.

Lemma chdir_failure_raises_OSError_witness :
  returned main_demo Py_None demo_args_missing demo_process = NULL
  /\ err_indicator (process_after main_demo Py_None demo_args_missing
                      demo_process)
     = Some chdir_error
  /\ exc_class chdir_error = PyExc_OSError
  /\ calls_made main_demo Py_None demo_args_missing demo_process = []
  /\ cwd (os (process_after main_demo Py_None demo_args_missing
                demo_process))
     = cwd (os demo_process)
  /\ os (process_after main_demo Py_None demo_args_missing demo_process)
     = os demo_process.
Proof.
  apply (chdir_failure_raises_OSError main_demo Py_None demo_args_missing
           demo_process "bodies.txt" "nowhere" "/home/user");
    [reflexivity | reflexivity | vm_compute; discriminate].
Defined.

(** C8: when the [chdir] back to the saved directory fails after [main]
    returned, the call still returns [main]'s status as a Python integer
    and raises nothing; it prints a warning, and the process stays in the
    state [main] left, which is the output directory unless [main] itself
    moved elsewhere. *)
Theorem restore_failure_not_fatal main self args p inp out c :
  parse_ss args = inr (inp, out) ->
  sys_getcwd 1024 (os p) = Some c ->
  fst (sys_chdir out (os p)) = 0 ->
  let o1 := snd (sys_chdir out (os p)) in
  let r := main 2 (argv_for inp) o1 in
  fst (sys_chdir c (os_after r)) <> 0 ->
  returned main self args p = Some (PyLong (status r))
  /\ err_indicator (process_after main self args p) = err_indicator p
  /\ stdout (process_after main self args p)
     = stdout p ++ banner inp out ++ printed r
         ++ ["Warning: Could not restore original directory" +:+ nl;
             "N-body simulation completed with return code: "
               +:+ pretty (status r) +:+ nl]
  /\ os (process_after main self args p) = os_after r
  /\ (cwd (os_after r) = cwd o1 ->
      cwd (os (process_after main self args p)) = resolve (cwd (os p)) out).
Proof.
  intros Hparse Hcwd Hcd o1 r Hback.
  on_path (run_main_called main self args p inp out c Hparse Hcwd Hcd).
  fold o1. fold r. rewrite (sys_chdir_fail _ _ Hback). cbn [fst snd].
  repeat split; try reflexivity.
  intros ->. subst o1. rewrite (sys_chdir_ok _ _ Hcd). reflexivity.
Qed.

Lemma restore_failure_not_fatal_witness :
  returned main_rmdir Py_None scratch_args scratch_process
  = Some (PyLong 3)
  /\ err_indicator (process_after main_rmdir Py_None scratch_args
                      scratch_process)
     = None
  /\ stdout (process_after main_rmdir Py_None scratch_args scratch_process)
     = banner "bodies.txt" "/data/out"
         ++ ["Warning: Could not restore original directory" +:+ nl;
             "N-body simulation completed with return code: 3" +:+ nl]
  /\ cwd (os (process_after main_rmdir Py_None scratch_args
                scratch_process))
     = "/data/out".
Proof.
  destruct (restore_failure_not_fatal main_rmdir Py_None scratch_args
              scratch_process "bodies.txt" "/data/out" "/tmp/scratch")
    as (Hret & Herr & Hout & _ & Hcwd);
    [reflexivity | reflexivity | reflexivity | vm_compute; discriminate |].
  split; [exact Hret |]. split; [exact Herr |]. split; [exact Hout |].
  apply Hcwd. reflexivity.
Defined.

(** ** Determinism *)

(** C6: with a [main] whose status is a function of its arguments, two
    calls with the same argument tuple from the same working directory
    that both return an integer return the same integer, whatever else
    differs between the two processes; when the directories agree as well,
    the two calls return the same value altogether. *)
Theorem run_deterministic main self args p1 p2 :
  status_of_arguments_only main ->
  cwd (os p1) = cwd (os p2) ->
  (forall v1 v2,
      returned main self args p1 = Some (PyLong v1) ->
      returned main self args p2 = Some (PyLong v2) ->
      v1 = v2)
  /\ (dirs (os p1) = dirs (os p2) ->
      returned main self args p1 = returned main self args p2).
Proof.
  intros Hpure Hwd.
  assert (Hshape : forall p,
    returned main self args p = NULL
    \/ exists inp out,
         parse_ss args = inr (inp, out)
         /\ returned main self args p
            = Some (PyLong (status (main 2 (argv_for inp)
                                      (snd (sys_chdir out (os p))))))).
  { intros p.
    destruct (parse_ss args) as [e | [inp out]] eqn:Hparse.
    { left. on_path (run_parse_error main self args p e Hparse).
      reflexivity. }
    destruct (sys_getcwd 1024 (os p)) as [c |] eqn:Hcwd.
    2: { left. on_path (run_getcwd_error main self args p inp out
                          Hparse Hcwd). reflexivity. }
    destruct (sys_chdir_rc out (os p)) as [Hrc | Hrc].
    - right. exists inp, out. split; [reflexivity |].
      on_path (run_main_called main self args p inp out c Hparse Hcwd Hrc).
      reflexivity.
    - left. on_path (run_chdir_error main self args p inp out c Hparse Hcwd);
        [reflexivity | rewrite Hrc; discriminate]. }
  split.
  - intros v1 v2 H1 H2.
    destruct (Hshape p1) as [E1 | (inp & out & Hparse & E1)];
      [rewrite E1 in H1; discriminate |].
    destruct (Hshape p2) as [E2 | (inp' & out' & Hparse' & E2)];
      [rewrite E2 in H2; discriminate |].
    rewrite Hparse in Hparse'. injection Hparse' as <- <-.
    rewrite E1 in H1. rewrite E2 in H2.
    injection H1 as <-. injection H2 as <-. apply Hpure.
  - intros Hdirs.
    assert (Hos : os p1 = os p2).
    { destruct (os p1), (os p2). simpl in *. congruence. }
    unfold returned.
    destruct (parse_ss args) as [e | [inp out]] eqn:Hparse.
    { rewrite !(run_parse_error main self args _ e Hparse). reflexivity. }
    destruct (sys_getcwd 1024 (os p1)) as [c |] eqn:Hcwd.
    2: { rewrite (run_getcwd_error main self args p1 inp out Hparse Hcwd).
         rewrite Hos in Hcwd.
         rewrite (run_getcwd_error main self args p2 inp out Hparse Hcwd).
         reflexivity. }
    destruct (sys_chdir_rc out (os p1)) as [Hrc | Hrc].
    + rewrite (run_main_called main self args p1 inp out c Hparse Hcwd Hrc).
      rewrite Hos in Hcwd, Hrc.
      rewrite (run_main_called main self args p2 inp out c Hparse Hcwd Hrc).
      cbn [fst]. rewrite Hos. reflexivity.
    + assert (Hne : fst (sys_chdir out (os p1)) <> 0)
        by (rewrite Hrc; discriminate).
      rewrite (run_chdir_error main self args p1 inp out c Hparse Hcwd Hne).
      rewrite Hos in Hcwd, Hne.
      rewrite (run_chdir_error main self args p2 inp out c Hparse Hcwd Hne).
      reflexivity.
Qed.

Lemma run_deterministic_witness :
  status (main_demo 2 (argv_for "bodies.txt")
            (snd (sys_chdir "out" (os demo_process))))
  = status (main_demo 2 (argv_for "bodies.txt")
              (snd (sys_chdir "out" (os later_process))))
  /\ returned main_demo Py_None demo_args demo_process
     = returned main_demo Py_None demo_args noisy_process.
Proof.
  assert (Hpure : status_of_arguments_only main_demo).
  { intros argc argv o o'. unfold main_demo.
    repeat match goal with
           | |- context [match ?x with _ => _ end] => destruct x
           end; reflexivity. }
  split.
  - destruct (run_deterministic main_demo Py_None demo_args demo_process
                later_process Hpure) as [Hint _]; [reflexivity |].
    apply Hint; reflexivity.
  - destruct (run_deterministic main_demo Py_None demo_args demo_process
                noisy_process Hpure) as [_ Hall]; [reflexivity |].
    apply Hall. reflexivity.
Defined.

(** * Beyond the contract *)

(** ** Every call takes one of the four paths *)

Lemma run_paths main self args p :
  (exists e,
      parse_ss args = inl e
      /\ run_nbody_simulation main self args p
         = (NULL, mkProcess (os p) (stdout p) (Some e) (main_calls p)))
  \/ (exists inp out e,
         parse_ss args = inr (inp, out)
         /\ (sys_getcwd 1024 (os p) = None
             \/ fst (sys_chdir out (os p)) <> 0)
         /\ run_nbody_simulation main self args p
            = (NULL, mkProcess (os p) (stdout p ++ banner inp out) (Some e)
                               (main_calls p)))
  \/ (exists inp out,
         parse_ss args = inr (inp, out)
         /\ sys_getcwd 1024 (os p) = Some (cwd (os p))
         /\ fst (sys_chdir out (os p)) = 0
         /\ let r := main 2 (argv_for inp) (snd (sys_chdir out (os p))) in
            let back := sys_chdir (cwd (os p)) (os_after r) in
            run_nbody_simulation main self args p
            = (Some (PyLong (status r)),
               mkProcess (snd back)
                 (stdout p ++ banner inp out ++ printed r
                    ++ epilogue (fst back) (status r))
                 (err_indicator p)
                 (main_calls p
                    ++ [mkMainCall 2 (argv_for inp)
                          (snd (sys_chdir out (os p)))]))).
Proof.
  destruct (parse_ss args) as [e | [inp out]] eqn:Hparse.
  { left. exists e. split; [reflexivity |].
    apply run_parse_error, Hparse. }
  right.
  destruct (sys_getcwd 1024 (os p)) as [c |] eqn:Hcwd.
  2: { left. exists inp, out, getcwd_error.
       split; [reflexivity |]. split; [left; reflexivity |].
       apply run_getcwd_error; assumption. }
  destruct (sys_chdir_rc out (os p)) as [Hrc | Hrc].
  - right. exists inp, out.
    destruct (sys_getcwd_Some _ _ _ Hcwd) as (-> & _ & _).
    split; [reflexivity |]. split; [reflexivity |]. split; [assumption |].
    apply run_main_called; assumption.
  - assert (Hne : fst (sys_chdir out (os p)) <> 0)
      by (rewrite Hrc; discriminate).
    left. exists inp, out, chdir_error.
    split; [reflexivity |]. split; [right; assumption |].
    apply (run_chdir_error main self args p inp out c); assumption.
Qed.


(** ** The C-API return protocol *)

(** X1: a call returns [NULL] only with an exception set by it, and when
    it returns a value, the value is a Python integer and the error
    indicator is as it was at entry. *)
Theorem null_return_iff_exception_set main self args p :
  (returned main self args p = NULL ->
   exists e, err_indicator (process_after main self args p) = Some e)
  /\ (forall v,
         returned main self args p = Some v ->
         (exists z, v = PyLong z)
         /\ err_indicator (process_after main self args p)
            = err_indicator p).
Proof.
  unfold returned, process_after.
  destruct (run_paths main self args p)
    as [(e & _ & E) | [(inp & out & e & _ & _ & E) | (inp & out & _ & _ & _ & E)]];
    rewrite E; cbn [fst snd err_indicator]; split.
  - intros _. exists e. reflexivity.
  - intros v Hv. discriminate Hv.
  - intros _. exists e. reflexivity.
  - intros v Hv. discriminate Hv.
  - intros Hnull. discriminate Hnull.
  - intros v [= <-]. split; [eexists; reflexivity | reflexivity].
Qed.

Lemma null_return_iff_exception_set_witness :
  (exists e,
      err_indicator (process_after main_demo Py_None demo_args_missing
                       demo_process) = Some e)
  /\ ((exists z, PyLong 3 = PyLong z)
      /\ err_indicator (process_after main_rmdir Py_None scratch_args
                          scratch_process)
         = err_indicator scratch_process).
Proof.
  split.
  - apply (null_return_iff_exception_set main_demo Py_None demo_args_missing
             demo_process). reflexivity.
  - apply (null_return_iff_exception_set main_rmdir Py_None scratch_args
             scratch_process). reflexivity.
Defined.

(** X2: a call invokes [main] at most once, and it invokes [main] exactly
    when it returns a value rather than [NULL]. *)
Theorem main_invoked_iff_value_returned main self args p :
  (length (calls_made main self args p) <= 1)%nat
  /\ (calls_made main self args p = [] <-> returned main self args p = NULL).
Proof.
  unfold calls_made, returned, process_after.
  destruct (run_paths main self args p)
    as [(e & _ & E) | [(inp & out & e & _ & _ & E) | (inp & out & _ & _ & _ & E)]];
    rewrite E; cbn [fst snd main_calls].
  - rewrite drop_all. split; [simpl; lia | split; reflexivity].
  - rewrite drop_all. split; [simpl; lia | split; reflexivity].
  - rewrite drop_app_length. split; [simpl; lia |].
    split; intros H; discriminate H.
Qed.

Lemma main_invoked_iff_value_returned_witness :
  returned main_demo Py_None demo_args_missing demo_process = NULL.
Proof.
  apply (main_invoked_iff_value_returned main_demo Py_None demo_args_missing
           demo_process). reflexivity.
Defined.

(** X3: a call that returns [NULL] leaves the working directory and the
    directories of the process exactly as they were at entry. *)
Theorem failed_call_leaves_os main self args p :
  returned main self args p = NULL ->
  os (process_after main self args p) = os p
  /\ cwd (os (process_after main self args p)) = cwd (os p).
Proof.
  unfold returned, process_after.
  destruct (run_paths main self args p)
    as [(e & _ & E) | [(inp & out & e & _ & _ & E) | (inp & out & _ & _ & _ & E)]];
    rewrite E; cbn [fst snd os]; intros Hnull;
    try discriminate Hnull; split; reflexivity.
Qed.

Lemma failed_call_leaves_os_witness :
  os (process_after main_demo Py_None demo_args_missing demo_process)
  = os demo_process
  /\ cwd (os (process_after main_demo Py_None demo_args_missing
                demo_process))
     = cwd (os demo_process).
Proof.
  apply (failed_call_leaves_os main_demo Py_None demo_args_missing
           demo_process). reflexivity.
Defined.

(** ** The buffer for the saved directory *)

(** X4: the saved directory goes into a buffer of 1024 bytes.  From a
    working directory whose path has 1024 bytes or more, a call with
    well-formed arguments raises [OSError] without changing directory and
    without invoking [main]. *)
Theorem long_cwd_raises_OSError main self args p inp out :
  parse_ss args = inr (inp, out) ->
  (1024 <= String.length (cwd (os p)))%nat ->
  returned main self args p = NULL
  /\ err_indicator (process_after main self args p) = Some getcwd_error
  /\ calls_made main self args p = []
  /\ os (process_after main self args p) = os p.
Proof.
  intros Hparse Hlen.
  assert (Hcwd : sys_getcwd 1024 (os p) = None).
  { unfold sys_getcwd.
    replace (String.length (cwd (os p)) + 1 <=? 1024)%nat with false
      by (symmetry; apply Nat.leb_gt; lia).
    rewrite andb_false_r. reflexivity. }
  on_path (run_getcwd_error main self args p inp out Hparse Hcwd).
  rewrite drop_all. repeat split; reflexivity.
Qed.

Lemma long_cwd_raises_OSError_witness :
  returned main_demo Py_None scratch_args deep_process = NULL
  /\ err_indicator (process_after main_demo Py_None scratch_args
                      deep_process)
     = Some getcwd_error
  /\ calls_made main_demo Py_None scratch_args deep_process = []
  /\ os (process_after main_demo Py_None scratch_args deep_process)
     = os deep_process.
Proof.
  apply (long_cwd_raises_OSError main_demo Py_None scratch_args deep_process
           "bodies.txt" "/data/out");
    [reflexivity | vm_compute; reflexivity].
Defined.

(** ** When the way back exists *)



(** ** What a call prints *)

(** X6: a call with well-formed arguments first prints the three lines
    that announce the run, also when it then fails; a failing call prints
    nothing more, and a call that returns an integer ends its output with
    the completion line showing that same integer. *)
Theorem printed_code_is_returned_code main self args p inp out :
  parse_ss args = inr (inp, out) ->
  exists rest,
    output_of main self args p = banner inp out ++ rest
    /\ (returned main self args p = NULL -> rest = [])
    /\ (forall z,
           returned main self args p = Some (PyLong z) ->
           last rest = Some (completion_line z)).
Proof.
  intros Hparse. unfold output_of, returned, process_after.
  destruct (run_paths main self args p)
    as [(e & Hparse' & E)
       | [(inp' & out' & e & Hparse' & _ & E)
         | (inp' & out' & Hparse' & _ & _ & E)]];
    rewrite Hparse in Hparse'; try discriminate Hparse';
    injection Hparse' as <- <-; rewrite E; cbn [fst snd stdout].
  - exists []. rewrite drop_app_length, app_nil_r.
    split; [reflexivity |]. split; [reflexivity |].
    intros z Hz. discriminate Hz.
  - eexists. rewrite drop_app_length. split; [reflexivity |]. split.
    + intros Hnull. discriminate Hnull.
    + intros z [= <-]. unfold epilogue. rewrite !app_assoc.
      apply last_snoc.
Qed.

Lemma printed_code_is_returned_code_witness :
  exists rest,
    output_of main_rmdir Py_None scratch_args scratch_process
    = banner "bodies.txt" "/data/out" ++ rest
    /\ last rest = Some (completion_line 3).
Proof.
  destruct (printed_code_is_returned_code main_rmdir Py_None scratch_args
              scratch_process "bodies.txt" "/data/out")
    as (rest & Hout & _ & Hlast); [reflexivity |].
  exists rest. split; [exact Hout |]. apply Hlast. reflexivity.
Defined.

(** ** Calling again *)





(** ** The module *)


